(** * Image Conversion Form: a shallow embedding of [App.vue]

    The repository holds one Vue single-file component in two revisions:

    - [src/frontend/src/App.vue]: HTTP through axios, endpoint taken from
      [import.meta.env.VITE_BASE_URL], twelve output formats, and a
      stand-alone loading indicator above the image container;
    - [src/unnamed/part_001] (second document): HTTP through ky, endpoint
      [/api/convert_image], four output formats, image container only.

    Both are embedded here, indexed by [Revision].  The component's refs
    become a record, the handlers become actions of a small state monad over
    the component and the browser it runs in, and the [await] inside
    [submitForm] splits that handler in the part that runs up to the
    suspension and the part that runs when the request settles. *)

From Stdlib Require Import Ascii String.
From stdpp Require Import base option strings gmap list pretty.

Local Open Scope string_scope.
Local Open Scope list_scope.

(** ** Revisions *)

Inductive Revision :=
| AxiosRev   (* src/frontend/src/App.vue *)
| KyRev.     (* src/unnamed/part_001, the component after flake.nix *)

(** ** Browser values *)

Module Platform.

(** A [File] as the file picker hands it over. *)
Record File := {
  file_name : string;
  file_type : string;
  file_content : list Byte.byte
}.

(** [new Blob(parts, { type })]: the value is kept as constructed.  The
    [type] option may be [undefined]. *)
Inductive BlobPart :=
| StringPart (s : string)
| BytesPart (bs : list Byte.byte)
| BlobPartOf (b : Blob)
with Blob :=
| NewBlob (parts : list BlobPart) (type : option string).

(** The [type] attribute a Blob gets from the type it was constructed
    with: the empty string when the given type has a character outside
    U+0020..U+007E, the given type in ASCII lower case otherwise. *)
Definition printable (c : ascii) : bool :=
  bool_decide (32 ≤ nat_of_ascii c ≤ 126)%nat.

Definition to_lower (c : ascii) : ascii :=
  if bool_decide (65 ≤ nat_of_ascii c ≤ 90)%nat
  then ascii_of_nat (nat_of_ascii c + 32)
  else c.

Fixpoint all_printable (s : string) : bool :=
  match s with
  | EmptyString => true
  | String c rest => printable c && all_printable rest
  end.

Fixpoint lower_case (s : string) : string :=
  match s with
  | EmptyString => EmptyString
  | String c rest => String (to_lower c) (lower_case rest)
  end.

Definition normalize_type (t : string) : string :=
  if all_printable t then lower_case t else "".

(** [blob.type]: the normalised given type, the empty string when none
    was given. *)
Definition blob_type (b : Blob) : string :=
  match b with NewBlob _ t => normalize_type (default "" t) end.

Definition blob_parts (b : Blob) : list BlobPart :=
  match b with NewBlob ps _ => ps end.

(** The content of a blob: the bytes of its parts, one after the other. *)
Fixpoint blob_bytes (b : Blob) : list Byte.byte :=
  match b with
  | NewBlob ps _ =>
      (fix parts_bytes (ps : list BlobPart) : list Byte.byte :=
         match ps with
         | [] => []
         | p :: rest =>
             match p with
             | StringPart s => String.list_byte_of_string s
             | BytesPart bs => bs
             | BlobPartOf b' => blob_bytes b'
             end ++ parts_bytes rest
         end) ps
  end.

(** [FormData]: an ordered list of named entries; [append] adds at the
    end and keeps earlier entries of the same name. *)
Inductive FormDataEntry :=
| FileEntry (f : File)
| BlobEntry (b : Blob).

Definition FormData := list (string * FormDataEntry).

Definition new_FormData : FormData := [].

Definition append (fd : FormData) (name : string) (v : FormDataEntry) : FormData :=
  fd ++ [(name, v)].

(** *** [JSON.stringify] on a string (QuoteJSONString) *)

Definition dquote : ascii := "034"%char.
Definition backslash : ascii := "092"%char.

Definition hex_digit (n : nat) : ascii :=
  match n with
  | 0 => "0" | 1 => "1" | 2 => "2" | 3 => "3" | 4 => "4"
  | 5 => "5" | 6 => "6" | 7 => "7" | 8 => "8" | 9 => "9"
  | 10 => "a" | 11 => "b" | 12 => "c" | 13 => "d" | 14 => "e"
  | _ => "f"
  end%char.

Definition quote_char (c : ascii) : string :=
  let n := nat_of_ascii c in
  if decide (n = 8) then String backslash "b"
  else if decide (n = 9) then String backslash "t"
  else if decide (n = 10) then String backslash "n"
  else if decide (n = 12) then String backslash "f"
  else if decide (n = 13) then String backslash "r"
  else if decide (n = 34) then String backslash (String dquote "")
  else if decide (n = 92) then String backslash (String backslash "")
  else if decide (n < 32) then
    String backslash
      ("u00" +:+ String (hex_digit (n / 16)) (String (hex_digit (n mod 16)) ""))
  else String c "".

Fixpoint quote_chars (s : string) : string :=
  match s with
  | EmptyString => ""
  | String c rest => quote_char c +:+ quote_chars rest
  end.

Definition JSON_stringify (s : string) : string :=
  String dquote (quote_chars s +:+ String dquote "").

(** Reading a JSON string literal back, as the receiver of the request
    does: the inverse of the quoting above (escapes beyond one byte are
    not read). *)
Definition hex_value (c : ascii) : option nat :=
  let n := nat_of_ascii c in
  if bool_decide (48 ≤ n ≤ 57)%nat then Some (n - 48)          (* 0..9 *)
  else if bool_decide (97 ≤ n ≤ 102)%nat then Some (n - 87)    (* a..f *)
  else if bool_decide (65 ≤ n ≤ 70)%nat then Some (n - 55)     (* A..F *)
  else None.

Definition unescape (e : ascii) : option ascii :=
  match e with
  | "b" => Some "008" | "t" => Some "009" | "n" => Some "010"
  | "f" => Some "012" | "r" => Some "013"
  | "034" => Some "034" | "092" => Some "092" | "/" => Some "/"
  | _ => None
  end%char.

Fixpoint unquote_chars (s : string) : option string :=
  match s with
  | EmptyString => None
  | String c rest =>
      if decide (c = dquote) then
        match rest with EmptyString => Some "" | _ => None end
      else if decide (c = backslash) then
        match rest with
        | String "u" (String "0" (String "0" (String h (String l rest')))) =>
            hv ← hex_value h; lv ← hex_value l;
            String (ascii_of_nat (16 * hv + lv)) <$> unquote_chars rest'
        | String e rest' =>
            ch ← unescape e; String ch <$> unquote_chars rest'
        | EmptyString => None
        end
      else if decide (nat_of_ascii c < 32) then None
      else String c <$> unquote_chars rest
  end.

Definition JSON_parse_string (s : string) : option string :=
  match s with
  | String c rest => if decide (c = dquote) then unquote_chars rest else None
  | EmptyString => None
  end.

(** A template literal prints an undefined value as [undefined]. *)
Definition interpolate (v : option string) : string := default "undefined" v.

(** *** HTTP *)

Record Request := {
  req_method : string;
  req_url : string;
  req_headers : list (string * string);
  req_body : FormData;
  req_responseType : option string
}.

(** A response body read as a blob by the client ([responseType: 'blob']
    for axios, [.blob()] for ky): its bytes, and the type the platform
    gave that blob.  The platform derives the type from the response's
    Content-Type; how (with or without parameters) differs between
    platforms, so it is part of the reply. *)
Record Body := {
  body_bytes : list Byte.byte;
  body_type : string
}.

Record HttpResponse := {
  resp_status : nat;
  resp_content_type : option string;
  resp_body : Body
}.

(** What comes back for a request: nothing (transport failure), or a
    status line with headers and a body that can or cannot be read. *)
Inductive Reply :=
| NoResponse (reason : string)
| Response (status : nat) (content_type : option string)
           (body : option Body).

Inductive Error :=
| NetworkError (reason : string)
| HTTPError (status : nat)
| BodyError.

(** The value an awaited [post] settles with.  Both clients reject on a
    transport failure and on a status outside 200..299 (axios'
    [validateStatus] default, ky's [throwHttpErrors] default). *)
Definition settle (r : Reply) : Error + HttpResponse :=
  match r with
  | NoResponse reason => inl (NetworkError reason)
  | Response status ct body =>
      if bool_decide (200 ≤ status < 300) then
        match body with
        | Some bs => inr {| resp_status := status;
                            resp_content_type := ct;
                            resp_body := bs |}
        | None => inl BodyError
        end
      else inl (HTTPError status)
  end.

(** The blob the client hands over for the response body. *)
Definition body_blob (r : HttpResponse) : Blob :=
  NewBlob [BytesPart (body_bytes (resp_body r))] (Some (body_type (resp_body r))).

(** What the handlers make the browser do, in order. *)
Inductive Effect :=
| Alert (msg : string)
| HttpPost (id : nat) (req : Request)
| ConsoleError (msg : string) (err : Error).

(** The browser around the component: the blob URL store, the requests
    in flight, and the effects so far (oldest first). *)
Record Browser := {
  blobUrls : gmap string Blob;
  nextUrl : nat;
  inflight : gset nat;
  nextRequest : nat;
  effects : list Effect
}.

Definition fresh_browser : Browser :=
  {| blobUrls := ∅; nextUrl := 0; inflight := ∅; nextRequest := 0;
     effects := [] |}.

Definition blob_url (n : nat) : string := "blob:" +:+ pretty n.

Definition log (e : Effect) (b : Browser) : Browser :=
  {| blobUrls := blobUrls b; nextUrl := nextUrl b; inflight := inflight b;
     nextRequest := nextRequest b; effects := effects b ++ [e] |}.

(** [URL.createObjectURL(blob)]: a URL not handed out before, registered
    in the blob URL store. *)
Definition createObjectURL (blob : Blob) (b : Browser) : string * Browser :=
  let u := blob_url (nextUrl b) in
  (u, {| blobUrls := <[u := blob]> (blobUrls b);
         nextUrl := S (nextUrl b);
         inflight := inflight b;
         nextRequest := nextRequest b;
         effects := effects b |}).

(** Sending a request: it gets the next id, is in flight from now on and
    is recorded. *)
Definition send (req : Request) (b : Browser) : nat * Browser :=
  let id := nextRequest b in
  (id, {| blobUrls := blobUrls b;
          nextUrl := nextUrl b;
          inflight := {[id]} ∪ inflight b;
          nextRequest := S id;
          effects := effects b ++ [HttpPost id req] |}).

Definition complete (id : nat) (b : Browser) : Browser :=
  {| blobUrls := blobUrls b; nextUrl := nextUrl b;
     inflight := inflight b ∖ {[id]};
     nextRequest := nextRequest b; effects := effects b |}.

End Platform.
Import Platform.

(** ** The component's state and the actions on it *)

(** The refs of [<script setup>]. *)
Record Component := {
  selectedFile : option File;
  imageUrl : option string;
  outputFormat : string;
  loading : bool
}.

Record World := {
  component : Component;
  browser : Browser
}.

(** [import.meta.env]; the variable may be unset at build time. *)
Record Env := { VITE_BASE_URL : option string }.

Module Act.

(** A handler step: reads and writes the refs, talks to the browser. *)
Definition Act (A : Type) : Type := World → A * World.

Definition ret {A} (a : A) : Act A := λ w, (a, w).

Definition bind {A B} (m : Act A) (k : A → Act B) : Act B :=
  λ w, let '(a, w') := m w in k a w'.

Definition exec {A} (m : Act A) (w : World) : World := (m w).2.

Definition read {A} (ref : Component → A) : Act A :=
  λ w, (ref (component w), w).

Definition on_component (f : Component → Component) : Act unit :=
  λ w, (tt, {| component := f (component w); browser := browser w |}).

Definition on_browser {A} (f : Browser → A * Browser) : Act A :=
  λ w, let '(a, b) := f (browser w) in
       (a, {| component := component w; browser := b |}).

Definition set_selectedFile (v : option File) : Act unit :=
  on_component (λ c, {| selectedFile := v; imageUrl := imageUrl c;
                        outputFormat := outputFormat c; loading := loading c |}).

Definition set_imageUrl (v : option string) : Act unit :=
  on_component (λ c, {| selectedFile := selectedFile c; imageUrl := v;
                        outputFormat := outputFormat c; loading := loading c |}).

Definition set_outputFormat (v : string) : Act unit :=
  on_component (λ c, {| selectedFile := selectedFile c; imageUrl := imageUrl c;
                        outputFormat := v; loading := loading c |}).

Definition set_loading (v : bool) : Act unit :=
  on_component (λ c, {| selectedFile := selectedFile c; imageUrl := imageUrl c;
                        outputFormat := outputFormat c; loading := v |}).

Definition alert (msg : string) : Act unit :=
  on_browser (λ b, (tt, log (Alert msg) b)).

Definition console_error (msg : string) (err : Error) : Act unit :=
  on_browser (λ b, (tt, log (ConsoleError msg err) b)).

Definition post (req : Request) : Act nat := on_browser (send req).

Definition URL_createObjectURL (blob : Blob) : Act string :=
  on_browser (createObjectURL blob).

Definition settled (id : nat) : Act unit :=
  on_browser (λ b, (tt, complete id b)).

End Act.
Import Act.

#[global] Instance act_ret : MRet Act := @ret.
#[global] Instance act_bind : MBind Act := λ A B k m, bind m k.

(** JavaScript truthiness of [File | null] and of [string | null]. *)
Definition truthy_file (f : option File) : bool :=
  match f with Some _ => true | None => false end.

Definition truthy_string (s : option string) : bool :=
  match s with Some s => negb (String.eqb s "") | None => false end.

(** ** The handlers *)

(** [handleFileUpload]; the argument is [event.target.files]. *)
Definition handleFileUpload (files : option (list File)) : Act unit :=
  match files with
  | Some fs =>
      if bool_decide (0 < length fs) then set_selectedFile (fs !! 0)
      else ret tt
  | None => ret tt
  end.

(** [isSubmitDisabled], the computed. *)
Definition isSubmitDisabled (c : Component) : bool :=
  negb (truthy_file (selectedFile c)) || loading c.

(** The spec's [canSubmit]: the submit control is enabled. *)
Definition canSubmit (c : Component) : bool := negb (isSubmitDisabled c).

(** The request each revision posts. *)
Definition conversion_url (rev : Revision) (env : Env) : string :=
  match rev with
  | AxiosRev => "//" +:+ interpolate (VITE_BASE_URL env) +:+ "/convert_image"
  | KyRev => "/api/convert_image"
  end.

Definition conversion_request (rev : Revision) (env : Env) (formData : FormData)
  : Request :=
  match rev with
  | AxiosRev =>
      {| req_method := "POST";
         req_url := conversion_url AxiosRev env;
         req_headers := [("Content-Type", "multipart/form-data")];
         req_body := formData;
         req_responseType := Some "blob" |}
  | KyRev =>
      {| req_method := "POST";
         req_url := conversion_url KyRev env;
         req_headers := [];
         req_body := formData;
         req_responseType := None |}
  end.

(** How far [submitForm] got when it gave control back. *)
Inductive Progress :=
| Returned
| Awaiting (id : nat).

Definition format_part (fmt : string) : Blob :=
  NewBlob [StringPart (JSON_stringify fmt)] (Some "application/json").

(** [submitForm], from its entry to the [await]. *)
Definition submitForm (rev : Revision) (env : Env) : Act Progress :=
  file ← read selectedFile;
  match file with
  | None =>
      alert "Please select a file!";;
      ret Returned
  | Some f =>
      set_loading true;;
      fmt ← read outputFormat;
      let formData := new_FormData in
      let formData := append formData "file" (FileEntry f) in
      let formData := append formData "output_type" (BlobEntry (format_part fmt)) in
      id ← post (conversion_request rev env formData);
      ret (Awaiting id)
  end.

(** The blob built from the response inside [try]. *)
Definition result_blob (rev : Revision) (response : HttpResponse) : Blob :=
  match rev with
  | AxiosRev =>
      NewBlob [BlobPartOf (body_blob response)] (resp_content_type response)
  | KyRev =>
      NewBlob [BlobPartOf (body_blob response)]
              (Some (blob_type (body_blob response)))
  end.

(** [submitForm], resumed when the awaited request settles: the rest of
    [try], or [catch], and then [finally]. *)
Definition submitForm_resume (rev : Revision) (reply : Reply) : Act unit :=
  match settle reply with
  | inr response =>
      url ← URL_createObjectURL (result_blob rev response);
      set_imageUrl (Some url)
  | inl error =>
      console_error "Error converting image" error
  end;;
  set_loading false.

(** ** The template *)

(** The option values of the format [<select>]. *)
Definition options (rev : Revision) : list string :=
  match rev with
  | AxiosRev => ["bmp"; "gif"; "ico"; "jpeg"; "pam"; "pbm"; "pgm"; "png";
                 "ppm"; "tga"; "tiff"; "webp"]
  | KyRev => ["jpeg"; "jxl"; "png"; "webp"]
  end.

(** The [accept] attribute of the file input. *)
Definition acceptedFileType (rev : Revision) : option string :=
  match rev with
  | AxiosRev => Some "image/*"
  | KyRev => None
  end.

Inductive Elem :=
| ConvertedImage (src : string)   (* <img class='converted-image'> *)
| LoadingIndicator.               (* <div class='loading-indicator'> *)

Inductive Block :=
| Form (accept : option string) (opts : list string) (selected : string)
       (submit_disabled : bool)
| Standalone (e : Elem)
| ImageContainer (children : list Elem).

(** The children of [<div class='image-container'>]: [v-if] / [v-else-if]. *)
Definition image_container (c : Component) : list Elem :=
  if truthy_string (imageUrl c) then [ConvertedImage (default "" (imageUrl c))]
  else if loading c then [LoadingIndicator]
  else [].

(** The rendered children of the root [<div>]. *)
Definition template (rev : Revision) (c : Component) : list Block :=
  match rev with
  | AxiosRev =>
      [Form (acceptedFileType AxiosRev) (options AxiosRev) (outputFormat c)
            (isSubmitDisabled c)]
      ++ (if loading c then [Standalone LoadingIndicator] else [])
      ++ [ImageContainer (image_container c)]
  | KyRev =>
      [Form (acceptedFileType KyRev) (options KyRev) (outputFormat c)
            (isSubmitDisabled c);
       ImageContainer (image_container c)]
  end.

(** What the Result Renderer puts on the page, in document order. *)
Definition elems_of (b : Block) : list Elem :=
  match b with
  | Form _ _ _ _ => []
  | Standalone e => [e]
  | ImageContainer es => es
  end.

Definition shown (rev : Revision) (c : Component) : list Elem :=
  flat_map elems_of (template rev c).

Definition is_image (e : Elem) : bool :=
  match e with ConvertedImage _ => true | LoadingIndicator => false end.

Definition is_indicator (e : Elem) : bool :=
  match e with ConvertedImage _ => false | LoadingIndicator => true end.

Definition submit_control (rev : Revision) (c : Component) : list bool :=
  flat_map (λ b, match b with Form _ _ _ d => [d] | _ => [] end) (template rev c).

(** ** The component in the event loop *)

Definition init_component : Component :=
  {| selectedFile := None; imageUrl := None; outputFormat := "png";
     loading := false |}.

Definition init : World :=
  {| component := init_component; browser := fresh_browser |}.

Inductive Event :=
| FileChange (files : option (list File))   (* @change on the file input *)
| FormatChange (value : string)             (* v-model on the select *)
| Submit                                    (* @submit.prevent on the form *)
| Settle (id : nat) (reply : Reply).        (* a request in flight settles *)

(** One turn of the event loop; [None] when the event cannot occur: the
    select offers its options only, and only a request in flight settles. *)
Definition step (rev : Revision) (env : Env) (ev : Event) (w : World)
  : option World :=
  match ev with
  | FileChange files => Some (exec (handleFileUpload files) w)
  | FormatChange v =>
      if bool_decide (v ∈ options rev) then Some (exec (set_outputFormat v) w)
      else None
  | Submit => Some (exec (submitForm rev env) w)
  | Settle id reply =>
      if bool_decide (id ∈ inflight (browser w))
      then Some (exec (settled id;; submitForm_resume rev reply) w)
      else None
  end.

Fixpoint run (rev : Revision) (env : Env) (evs : list Event) (w : World)
  : option World :=
  match evs with
  | [] => Some w
  | ev :: rest =>
      match step rev env ev w with
      | Some w' => run rev env rest w'
      | None => None
      end
  end.

Definition reachable (rev : Revision) (env : Env) (w : World) : Prop :=
  ∃ evs, run rev env evs init = Some w.

(** A whole [submitForm()] call with nothing in between: up to the await
    and, when a request went out, on with the reply to it. *)
Definition submitForm_call (rev : Revision) (env : Env) (reply : Reply)
  : Act unit :=
  p ← submitForm rev env;
  match p with
  | Returned => ret tt
  | Awaiting id => settled id;; submitForm_resume rev reply
  end.

(** ** Vocabulary of the properties *)

Definition with_loading (v : bool) (c : Component) : Component :=
  {| selectedFile := selectedFile c; imageUrl := imageUrl c;
     outputFormat := outputFormat c; loading := v |}.

Definition with_imageUrl (v : option string) (c : Component) : Component :=
  {| selectedFile := selectedFile c; imageUrl := v;
     outputFormat := outputFormat c; loading := loading c |}.

(** The two entries [submitForm] appends to its [FormData]. *)
Definition submitted_body (f : File) (fmt : string) : FormData :=
  [("file", FileEntry f);
   ("output_type",
    BlobEntry (NewBlob [StringPart (JSON_stringify fmt)] (Some "application/json")))].

(** The three ways a submission fails, and the error caught for each. *)
Inductive Failure : Reply → Error → Prop :=
| failure_network reason :
    Failure (NoResponse reason) (NetworkError reason)
| failure_status status ct body :
    ¬ (200 ≤ status < 300) →
    Failure (Response status ct body) (HTTPError status)
| failure_malformed status ct :
    200 ≤ status < 300 →
    Failure (Response status ct None) BodyError.

(** The image containers of a rendered template, each with its children. *)
Definition containers (bs : list Block) : list (list Elem) :=
  flat_map (λ b, match b with ImageContainer es => [es] | _ => [] end) bs.

(** The renderer as the specification words it: the image when a result is
    present, else a loading indicator while loading, else nothing. *)
Definition renderer_spec (c : Component) : list Elem :=
  match imageUrl c with
  | Some u =>
      if negb (String.eqb u "") then [ConvertedImage u]
      else if loading c then [LoadingIndicator] else []
  | None => if loading c then [LoadingIndicator] else []
  end.

(** The endpoint as the specification words it: the request of a
    submission is a POST to the conversion path on the host the build was
    configured with. *)
Definition posts_to_configured_endpoint (rev : Revision) (env : Env) (w : World)
  : Prop :=
  ∀ id req,
    HttpPost id req ∈ effects (browser (exec (submitForm rev env) w)) →
    req_method req = "POST"
    ∧ req_url req = "//" +:+ interpolate (VITE_BASE_URL env) +:+ "/convert_image".

(** What holds in every world the component can get to. *)
Record Inv (rev : Revision) (w : World) : Prop := {
  (* without a file nothing was ever sent *)
  inv_idle :
    selectedFile (component w) = None →
    loading (component w) = false ∧ inflight (browser w) = ∅;
  (* loading is true only while a request is in flight *)
  inv_loading :
    loading (component w) = true → inflight (browser w) ≠ ∅;
  (* the result, when there is one, is a URL the store handed out *)
  inv_result :
    ∀ u, imageUrl (component w) = Some u →
         ∃ n, n < nextUrl (browser w) ∧ u = blob_url n;
  inv_store :
    ∀ u b, blobUrls (browser w) !! u = Some b →
           ∃ n, n < nextUrl (browser w) ∧ u = blob_url n;
  (* the format is one the select offers *)
  inv_format : outputFormat (component w) ∈ options rev
}.

(** ** Example worlds *)

Definition example_env : Env := {| VITE_BASE_URL := Some "conv.pupbrained.xyz" |}.

Definition other_env : Env := {| VITE_BASE_URL := Some "localhost:8080" |}.

Definition example_file : File :=
  {| file_name := "cat.jpeg"; file_type := "image/jpeg"; file_content := [] |}.

Definition example_body : Body :=
  {| body_bytes := []; body_type := "image/png" |}.

(** A file is selected, nothing was submitted yet. *)
Definition example_selected (fmt : string) : World :=
  {| component :=
       {| selectedFile := Some example_file; imageUrl := None;
          outputFormat := fmt; loading := false |};
     browser := fresh_browser |}.

(** A file is selected, a first submission has succeeded, a second one is
    in flight. *)
Definition example_pending : World :=
  let w := exec (handleFileUpload (Some [example_file])) init in
  let w := exec (submitForm AxiosRev example_env) w in
  let w := exec (settled 0;;
                 submitForm_resume AxiosRev
                   (Response 200 (Some "image/png") (Some example_body))) w in
  exec (submitForm AxiosRev example_env) w.

(** ** The dev-server proxy of [vite.config.ts] *)

Module ViteConfig.

(** [s] without the leading [p], when it starts with [p]. *)
Fixpoint strip_prefix (p s : string) : option string :=
  match p, s with
  | EmptyString, _ => Some s
  | String a p', String b s' =>
      if decide (a = b) then strip_prefix p' s' else None
  | String _ _, EmptyString => None
  end.

(** [rewrite: path => path.replace(/^\/api/, '')]: the pattern is anchored
    at the start and has no [g] flag, so at most the leading occurrence is
    replaced. *)
Definition rewrite_path (path : string) : string :=
  match strip_prefix "/api" path with
  | Some rest => rest
  | None => path
  end.

Record ProxyOptions := {
  target : string;
  changeOrigin : bool;
  secure : bool;
  rewrite : string → string
}.

(** [server.proxy]: one rule, keyed by the context [/api]. *)
Definition proxy : list (string * ProxyOptions) :=
  [("/api",
    {| target := "http://localhost:8080";
       changeOrigin := true;
       secure := false;
       rewrite := rewrite_path |})].

(** The rule the dev server applies to a request: the first one whose
    context the request's path starts with, if any. *)
Fixpoint rule_for (rules : list (string * ProxyOptions)) (path : string)
  : option ProxyOptions :=
  match rules with
  | [] => None
  | (context, opts) :: rest =>
      match strip_prefix context path with
      | Some _ => Some opts
      | None => rule_for rest path
      end
  end.

End ViteConfig.
Import ViteConfig.

(** ** The component driven through its form only *)

(** One turn of the event loop when [submitForm] runs only on a click of
    the submit button, which the template disables with
    [isSubmitDisabled]. *)
Definition ui_step (rev : Revision) (env : Env) (ev : Event) (w : World)
  : option World :=
  match ev with
  | Submit =>
      if isSubmitDisabled (component w) then None
      else step rev env Submit w
  | _ => step rev env ev w
  end.

Fixpoint ui_run (rev : Revision) (env : Env) (evs : list Event) (w : World)
  : option World :=
  match evs with
  | [] => Some w
  | ev :: rest =>
      match ui_step rev env ev w with
      | Some w' => ui_run rev env rest w'
      | None => None
      end
  end.

(** Idle, or waiting for the one request in flight. *)
Definition calm (w : World) : Prop :=
  (loading (component w) = false ∧ inflight (browser w) = ∅)
  ∨ (loading (component w) = true ∧ ∃ id, inflight (browser w) = {[id]}).

(** ** Counting what happened *)

Definition is_post (e : Effect) : bool :=
  match e with HttpPost _ _ => true | _ => false end.

Definition is_alert (e : Effect) : bool :=
  match e with Alert _ => true | _ => false end.

Definition is_console_error (e : Effect) : bool :=
  match e with ConsoleError _ _ => true | _ => false end.

Definition is_submit (ev : Event) : bool :=
  match ev with Submit => true | _ => false end.

Fixpoint count {A} (p : A → bool) (l : list A) : nat :=
  match l with
  | [] => 0
  | x :: rest => (if p x then 1 else 0) + count p rest
  end.

(** The two revisions in step: same refs, same requests in flight, same
    counters. *)
Definition in_step (wa wk : World) : Prop :=
  component wa = component wk
  ∧ inflight (browser wa) = inflight (browser wk)
  ∧ nextRequest (browser wa) = nextRequest (browser wk)
  ∧ nextUrl (browser wa) = nextUrl (browser wk).

(** ** Unfolding the actions *)

Ltac act_unfold :=
  cbv [exec submitForm_call submitForm submitForm_resume handleFileUpload
       mbind act_bind bind mret act_ret ret read on_component on_browser
       set_selectedFile set_imageUrl set_outputFormat set_loading
       alert console_error post URL_createObjectURL settled
       send createObjectURL complete log new_FormData append format_part] in *;
  cbn [component browser selectedFile imageUrl outputFormat loading
       blobUrls nextUrl inflight nextRequest effects fst snd app] in *.

(** * Properties *)

(** ** The handlers one by one *)

Lemma submitForm_guard rev env w :
  selectedFile (component w) = None →
  submitForm rev env w =
    (Returned,
     {| component := component w;
        browser := log (Alert "Please select a file!") (browser w) |}).
Proof. intros H. act_unfold. rewrite H. reflexivity. Qed.

Lemma submitForm_sends rev env w f :
  selectedFile (component w) = Some f →
  submitForm rev env w =
    (Awaiting (nextRequest (browser w)),
     {| component := with_loading true (component w);
        browser :=
          (send (conversion_request rev env
                   (submitted_body f (outputFormat (component w))))
                (browser w)).2 |}).
Proof. intros H. act_unfold. rewrite H. reflexivity. Qed.

Lemma resume_failure rev reply err w :
  settle reply = inl err →
  submitForm_resume rev reply w =
    (tt,
     {| component := with_loading false (component w);
        browser := log (ConsoleError "Error converting image" err) (browser w) |}).
Proof. intros H. act_unfold. rewrite H. reflexivity. Qed.

Lemma resume_success rev reply response w :
  settle reply = inr response →
  submitForm_resume rev reply w =
    (tt,
     {| component :=
          with_loading false
            (with_imageUrl (Some (blob_url (nextUrl (browser w)))) (component w));
        browser := (createObjectURL (result_blob rev response) (browser w)).2 |}).
Proof. intros H. act_unfold. rewrite H. reflexivity. Qed.

Lemma step_settle rev env id reply w :
  id ∈ inflight (browser w) →
  step rev env (Settle id reply) w =
    Some (exec (submitForm_resume rev reply)
               {| component := component w; browser := complete id (browser w) |}).
Proof.
  intros Hin. cbn [step]. rewrite bool_decide_eq_true_2 by done. reflexivity.
Qed.

(** ** Runs *)

Lemma run_app rev env evs1 evs2 w :
  run rev env (evs1 ++ evs2) w = run rev env evs1 w ≫= run rev env evs2.
Proof.
  revert w. induction evs1 as [|ev evs1 IH]; intros w; [reflexivity|].
  cbn [run app]. destruct (step rev env ev w) as [w'|]; [apply IH | reflexivity].
Qed.

Lemma reachable_init rev env : reachable rev env init.
Proof. by exists []. Qed.

Lemma reachable_step rev env ev w w' :
  reachable rev env w → step rev env ev w = Some w' → reachable rev env w'.
Proof.
  intros [evs Hrun] Hstep. exists (evs ++ [ev]).
  rewrite run_app, Hrun. cbn. by rewrite Hstep.
Qed.

Lemma reachable_run rev env evs w w' :
  reachable rev env w → run rev env evs w = Some w' → reachable rev env w'.
Proof.
  intros [evs0 Hrun0] Hrun. exists (evs0 ++ evs).
  by rewrite run_app, Hrun0.
Qed.

(** The effects are only ever added to. *)
Lemma step_effects rev env ev w w' :
  step rev env ev w = Some w' →
  ∃ new, effects (browser w') = effects (browser w) ++ new.
Proof.
  destruct ev as [files|v| |id reply]; cbn [step]; intros Hstep.
  - injection Hstep as <-. exists []. rewrite app_nil_r.
    destruct files as [fs|]; act_unfold; [|reflexivity].
    case_bool_decide; reflexivity.
  - case_bool_decide; [|discriminate]. injection Hstep as <-.
    exists []. by rewrite app_nil_r.
  - injection Hstep as <-.
    destruct (selectedFile (component w)) as [f|] eqn:Hf; act_unfold; rewrite Hf;
      cbn; eauto.
  - case_bool_decide; [|discriminate]. injection Hstep as <-.
    act_unfold. destruct (settle reply); cbn; eauto.
    exists []. by rewrite app_nil_r.
Qed.

Lemma run_effects rev env evs w w' :
  run rev env evs w = Some w' →
  ∃ new, effects (browser w') = effects (browser w) ++ new.
Proof.
  revert w. induction evs as [|ev evs IH]; intros w; cbn [run].
  - intros [= <-]. exists []. by rewrite app_nil_r.
  - destruct (step rev env ev w) as [w1|] eqn:Hstep; [|discriminate].
    intros Hrun. destruct (step_effects _ _ _ _ _ Hstep) as [n1 H1].
    destruct (IH _ Hrun) as [n2 H2]. exists (n1 ++ n2).
    by rewrite H2, H1, app_assoc.
Qed.

(** ** Invariants *)

Lemma blob_url_inj n m : blob_url n = blob_url m → n = m.
Proof. unfold blob_url. cbn. intros [= H]. by apply (inj pretty). Qed.

Lemma blob_url_truthy n : truthy_string (Some (blob_url n)) = true.
Proof. reflexivity. Qed.

Lemma png_offered rev : "png" ∈ options rev.
Proof.
  destruct rev; cbn;
    repeat first [apply list_elem_of_here | apply list_elem_of_further].
Qed.

Lemma Inv_init rev : Inv rev init.
Proof. split; cbn; try done. apply png_offered. Qed.

Lemma in_flight_after_send (id : nat) (ids : gset nat) : {[id]} ∪ ids ≠ ∅.
Proof.
  intros He. apply (not_elem_of_empty (C:=gset nat) id).
  rewrite <- He. apply elem_of_union_l, elem_of_singleton. reflexivity.
Qed.

Lemma not_in_flight_after_complete (id : nat) (ids : gset nat) :
  id ∉ ids ∖ {[id]}.
Proof. intros [_ Hn]%elem_of_difference. apply Hn, elem_of_singleton. reflexivity. Qed.

Lemma Inv_step rev env ev w w' :
  Inv rev w → step rev env ev w = Some w' → Inv rev w'.
Proof.
  intros HI.
  destruct ev as [files|v| |id reply]; cbn [step]; intros Hstep.
  - (* FileChange: the file can only go from absent to present *)
    injection Hstep as <-. destruct HI.
    destruct files as [[|f fs]|]; act_unfold; cbn; by split.
  - (* FormatChange: only offered values get in *)
    case_bool_decide; [|discriminate]. injection Hstep as <-.
    destruct HI. act_unfold. by split.
  - (* Submit *)
    injection Hstep as <-. unfold exec.
    destruct (selectedFile (component w)) as [f|] eqn:Hf.
    + rewrite (submitForm_sends _ _ _ _ Hf). unfold send. destruct HI.
      split; cbn; try done.
      * by rewrite Hf.
      * intros _. apply in_flight_after_send.
    + rewrite (submitForm_guard _ _ _ Hf). unfold log. by destruct HI.
  - (* Settle: a request was sent, so a file is selected *)
    case_bool_decide as Hin; [|discriminate]. injection Hstep as <-.
    assert (∃ f, selectedFile (component w) = Some f) as [f Hf].
    { destruct (selectedFile (component w)) eqn:E; [eauto|].
      destruct (inv_idle _ _ HI E) as [_ He]. rewrite He in Hin.
      by apply not_elem_of_empty in Hin. }
    destruct HI as [_ _ Hres Hstore Hfmt].
    act_unfold. destruct (settle reply) as [err|response]; cbn.
    + split; cbn; try done. by rewrite Hf.
    + split; cbn; try done.
      * by rewrite Hf.
      * intros u [= <-]. exists (nextUrl (browser w)). split; [lia|done].
      * intros u b Hu.
        destruct (decide (blob_url (nextUrl (browser w)) = u)) as [<-|Hne].
        -- exists (nextUrl (browser w)). split; [lia|done].
        -- rewrite lookup_insert_ne in Hu by done.
           destruct (Hstore _ _ Hu) as (n & Hn & ->). exists n. split; [lia|done].
Qed.

Lemma Inv_run rev env evs w w' :
  Inv rev w → run rev env evs w = Some w' → Inv rev w'.
Proof.
  revert w. induction evs as [|ev evs IH]; intros w HI; cbn [run].
  - by intros [= <-].
  - destruct (step rev env ev w) as [w1|] eqn:Hstep; [|discriminate].
    intros Hrun. eapply IH; [|exact Hrun]. by eapply Inv_step.
Qed.

Lemma reachable_Inv rev env w : reachable rev env w → Inv rev w.
Proof. intros [evs Hrun]. eapply Inv_run; [apply Inv_init | exact Hrun]. Qed.

(** ** The claims *)

(** *** Initial state *)

(** C10. Before any user action no file is selected, the output format is
    [png] (one of the values the select offers), loading is false and there
    is no result; so the submit control is rendered disabled and the Result
    Renderer renders nothing, in both revisions. *)
Theorem C10_initial_state (rev : Revision) :
  selectedFile init_component = None
  ∧ outputFormat init_component = "png"
  ∧ "png" ∈ options rev
  ∧ loading init_component = false
  ∧ imageUrl init_component = None
  ∧ isSubmitDisabled init_component = true
  ∧ submit_control rev init_component = [true]
  ∧ shown rev init_component = []
  ∧ component init = init_component.
Proof.
  repeat split; try (by destruct rev). apply png_offered.
Qed.

(** *** The submit control *)

Lemma submit_control_is_computed rev c :
  submit_control rev c = [isSubmitDisabled c].
Proof. destruct rev; cbn; [destruct (loading c)|]; reflexivity. Qed.

(** C2. [canSubmit], the negation of the control's [disabled] flag, is true
    exactly when a file is selected and loading is false; the control is
    disabled without a file whatever the format and the loading flag are,
    and disabled while loading whatever the file selection is. *)
Theorem C2_canSubmit (rev : Revision) (c : Component) :
  submit_control rev c = [negb (canSubmit c)]
  ∧ (canSubmit c = true ↔ is_Some (selectedFile c) ∧ loading c = false)
  ∧ (∀ url fmt ld,
       isSubmitDisabled {| selectedFile := None; imageUrl := url;
                           outputFormat := fmt; loading := ld |} = true)
  ∧ (∀ file url fmt,
       isSubmitDisabled {| selectedFile := file; imageUrl := url;
                           outputFormat := fmt; loading := true |} = true).
Proof.
  split; [|split; [|split]].
  - rewrite submit_control_is_computed. unfold canSubmit.
    by rewrite negb_involutive.
  - unfold canSubmit, isSubmitDisabled.
    destruct (selectedFile c) as [f|], (loading c); cbn; split;
      try discriminate; try (intros [[? [=]] ?]; fail);
      try (intros [_ [=]]; fail); eauto.
  - reflexivity.
  - intros [f|] url fmt; reflexivity.
Qed.

(** *** File selection *)

(** C8. [handleFileUpload] stores the first file of the event's list in
    place of whatever was selected, whatever that file's name, type and
    content are, and touches nothing else; with an empty or a missing list
    it changes nothing.  It never alerts or logs. *)
Theorem C8_handleFileUpload (w : World) :
  (∀ f rest,
     handleFileUpload (Some (f :: rest)) w =
       (tt, {| component :=
                 {| selectedFile := Some f;
                    imageUrl := imageUrl (component w);
                    outputFormat := outputFormat (component w);
                    loading := loading (component w) |};
               browser := browser w |}))
  ∧ handleFileUpload (Some []) w = (tt, w)
  ∧ handleFileUpload None w = (tt, w).
Proof. repeat split. Qed.

(** *** The missing-file guard *)

(** C3. Called with no file selected, [submitForm] returns at once after
    one alert: the refs are all as they were, nothing is sent, nothing is
    in flight that was not before; and in a world the component can be in,
    loading is false then. *)
Theorem C3_missing_file_guard (rev : Revision) (env : Env) (w : World) :
  selectedFile (component w) = None →
  ∃ w',
    submitForm rev env w = (Returned, w')
    ∧ step rev env Submit w = Some w'
    ∧ component w' = component w
    ∧ effects (browser w') = effects (browser w) ++ [Alert "Please select a file!"]
    ∧ inflight (browser w') = inflight (browser w)
    ∧ nextRequest (browser w') = nextRequest (browser w)
    ∧ blobUrls (browser w') = blobUrls (browser w)
    ∧ (reachable rev env w →
       loading (component w') = false ∧ inflight (browser w') = ∅).
Proof.
  intros Hf. eexists. split; [by apply submitForm_guard|].
  split; [cbn [step]; unfold exec; by rewrite submitForm_guard|].
  cbn. repeat (split; [reflexivity|]).
  intros Hr. by apply (inv_idle _ _ (reachable_Inv _ _ _ Hr)).
Qed.

Lemma C3_missing_file_guard_witness :
  selectedFile (component init) = None
  ∧ ∃ w', submitForm AxiosRev example_env init = (Returned, w')
          ∧ component w' = component init.
Proof.
  split; [reflexivity|].
  destruct (C3_missing_file_guard AxiosRev example_env init eq_refl)
    as (w' & Hret & _ & Hc & _).
  exists w'. split; [exact Hret | exact Hc].
Defined.

(** *** Loading is reset *)

(** C1. Without a file [submitForm] returns with loading as it was.  With a
    file it sets loading, sends the request and waits; whenever that
    request settles, with whatever reply and after whatever other events,
    the resumed handler ends with loading false, and so does the call run
    from start to end in one go.  In every world the component can be in,
    loading is true only while a request is in flight. *)
Theorem C1_loading_reset (rev : Revision) (env : Env) (w : World) :
  (selectedFile (component w) = None →
     (submitForm rev env w).1 = Returned
     ∧ loading (component (exec (submitForm rev env) w)) = loading (component w))
  ∧ (∀ f, selectedFile (component w) = Some f →
       ∃ id w1,
         submitForm rev env w = (Awaiting id, w1)
         ∧ loading (component w1) = true
         ∧ id ∈ inflight (browser w1)
         ∧ (∀ reply,
              loading (component (exec (submitForm_call rev env reply) w)) = false)
         ∧ (∀ evs w2 reply,
              run rev env evs w1 = Some w2 →
              id ∈ inflight (browser w2) →
              ∃ w3, step rev env (Settle id reply) w2 = Some w3
                    ∧ loading (component w3) = false
                    ∧ id ∉ inflight (browser w3)))
  ∧ (reachable rev env w →
     loading (component w) = true → inflight (browser w) ≠ ∅).
Proof.
  split; [|split].
  - intros Hf. unfold exec. by rewrite submitForm_guard.
  - intros f Hf. eexists _, _. split; [by apply submitForm_sends|].
    split; [reflexivity|].
    split; [cbn; apply elem_of_union_l, elem_of_singleton; reflexivity|]. split.
    + intros reply. unfold submitForm_call, exec.
      cbv [mbind act_bind bind]. rewrite (submitForm_sends _ _ _ _ Hf).
      act_unfold. by destruct (settle reply).
    + intros evs w2 reply _ Hin. eexists. split; [by apply step_settle|].
      unfold exec. destruct (settle reply) as [err|response] eqn:Hs.
      * rewrite (resume_failure _ _ _ _ Hs). cbn.
        split; [done | apply not_in_flight_after_complete].
      * rewrite (resume_success _ _ _ _ Hs). cbn.
        split; [done | apply not_in_flight_after_complete].
  - intros Hr. apply (inv_loading _ _ (reachable_Inv _ _ _ Hr)).
Qed.

Lemma C1_loading_reset_witness :
  ∃ w1, submitForm KyRev example_env
          (exec (handleFileUpload (Some [example_file])) init) = (Awaiting 0, w1)
        ∧ ∃ w3, step KyRev example_env (Settle 0 (Response 500 None None)) w1 = Some w3
                ∧ loading (component w3) = false.
Proof.
  destruct (C1_loading_reset KyRev example_env
              (exec (handleFileUpload (Some [example_file])) init))
    as (_ & Hsend & _).
  destruct (Hsend example_file eq_refl) as (id & w1 & Hs & _ & Hin & _ & Hsettle).
  assert (id = 0) as -> by (vm_compute in Hs; congruence).
  exists w1. split; [exact Hs|].
  destruct (Hsettle [] w1 (Response 500 None None) eq_refl Hin) as (w3 & H3 & Hl & _).
  exists w3. split; [exact H3 | exact Hl].
Defined.

(** *** A failed submission *)

Lemma settle_Failure reply err : settle reply = inl err ↔ Failure reply err.
Proof.
  split.
  - destruct reply as [reason|status ct [body|]]; cbn; try case_bool_decide;
      intros [= <-]; by constructor.
  - destruct 1; cbn; try case_bool_decide; done.
Qed.

Lemma settle_success status ct body :
  200 ≤ status < 300 →
  settle (Response status ct (Some body)) =
    inr {| resp_status := status; resp_content_type := ct; resp_body := body |}.
Proof. intros H. cbn. by rewrite bool_decide_eq_true_2. Qed.

Lemma shown_idle rev c :
  loading c = false →
  shown rev c =
    if truthy_string (imageUrl c) then [ConvertedImage (default "" (imageUrl c))]
    else [].
Proof.
  intros Hl. destruct rev; cbv [shown template image_container]; rewrite Hl;
    cbn; destruct (truthy_string (imageUrl c)); reflexivity.
Qed.

(** C4. When the request of a submission settles as a failure (no response,
    a status outside 200..299, or a body that cannot be read), the resumed
    handler logs the error on the console and does nothing else but reset
    loading: the refs are otherwise as before, so the page shows the
    previous result if there was one and nothing otherwise; no alert, no
    new blob URL. *)
Theorem C4_failure_only_logs (rev : Revision) (env : Env) (w : World)
    (id : nat) (reply : Reply) (err : Error) :
  id ∈ inflight (browser w) →
  Failure reply err →
  ∃ w',
    step rev env (Settle id reply) w = Some w'
    ∧ component w' = with_loading false (component w)
    ∧ imageUrl (component w') = imageUrl (component w)
    ∧ loading (component w') = false
    ∧ effects (browser w') =
        effects (browser w) ++ [ConsoleError "Error converting image" err]
    ∧ blobUrls (browser w') = blobUrls (browser w)
    ∧ shown rev (component w') =
        if truthy_string (imageUrl (component w))
        then [ConvertedImage (default "" (imageUrl (component w)))]
        else [].
Proof.
  intros Hin Hfail. apply settle_Failure in Hfail.
  eexists. split; [by apply step_settle|].
  unfold exec. rewrite (resume_failure _ _ _ _ Hfail). cbn.
  repeat (split; [reflexivity|]). by rewrite shown_idle.
Qed.

Lemma C4_failure_only_logs_witness :
  1 ∈ inflight (browser example_pending)
  ∧ Failure (Response 500 None None) (HTTPError 500)
  ∧ ∃ w', step AxiosRev example_env (Settle 1 (Response 500 None None))
               example_pending = Some w'
          ∧ imageUrl (component w') = Some (blob_url 0)
          ∧ loading (component w') = false.
Proof.
  assert (1 ∈ inflight (browser example_pending)) as Hin
    by (apply elem_of_union_l, elem_of_singleton; reflexivity).
  assert (Failure (Response 500 None None) (HTTPError 500)) as Hfail
    by (apply failure_status; lia).
  split; [exact Hin|]. split; [exact Hfail|].
  destruct (C4_failure_only_logs AxiosRev example_env example_pending 1 _ _ Hin Hfail)
    as (w' & Hstep & _ & Hurl & Hl & _).
  exists w'. split; [exact Hstep|]. split; [exact Hurl | exact Hl].
Defined.

(** *** The request body *)

(** [JSON.stringify] loses nothing: the literal reads back as the string. *)
Lemma unquote_quote_char c t r :
  unquote_chars t = Some r →
  unquote_chars (quote_char c +:+ t) = Some (String c r).
Proof.
  intros Ht.
  destruct c as [[] [] [] [] [] [] [] []];
    (vm_compute (quote_char _); cbv [String.append];
     cbn; rewrite ?Ht; reflexivity).
Qed.

Lemma string_app_assoc (a b c : string) : (a +:+ b) +:+ c = a +:+ (b +:+ c).
Proof.
  induction a as [|x a IH]; [reflexivity|].
  change (String x ((a +:+ b) +:+ c) = String x (a +:+ (b +:+ c))).
  by rewrite IH.
Qed.

Lemma unquote_quote_chars s :
  unquote_chars (quote_chars s +:+ String dquote "") = Some s.
Proof.
  induction s as [|c s IH]; [reflexivity|].
  change (quote_chars (String c s)) with (quote_char c +:+ quote_chars s).
  rewrite string_app_assoc. by apply unquote_quote_char.
Qed.

Lemma JSON_parse_stringify s : JSON_parse_string (JSON_stringify s) = Some s.
Proof. apply unquote_quote_chars. Qed.

(** The values the select offers contain nothing [JSON.stringify] escapes:
    the encoding is the value between double quotes. *)
Lemma JSON_stringify_option rev fmt :
  fmt ∈ options rev →
  JSON_stringify fmt = String dquote (fmt +:+ String dquote "").
Proof.
  intros Hin. destruct rev; cbn in Hin;
    repeat (apply elem_of_cons in Hin as [->|Hin]; [reflexivity|]);
    by apply elem_of_nil in Hin.
Qed.

Lemma effects_kept rev env evs w w' e :
  run rev env evs w = Some w' →
  ∀ i, effects (browser w) !! i = Some e → effects (browser w') !! i = Some e.
Proof.
  intros Hrun i Hi. destruct (run_effects _ _ _ _ _ Hrun) as [new ->].
  by apply lookup_app_l_Some.
Qed.

(** C5. With a file selected, [submitForm] sends one request whose body has
    exactly two entries, in this order: the file itself under [file], and
    under [output_type] a blob of type [application/json] holding
    [JSON.stringify] of the output format the component has at the call,
    a JSON string literal that reads back as that format.
    In a world the component can be in, the format is a value the select
    offers and its encoding is that value in double quotes.
    The request stays as sent whatever happens afterwards, a change of the
    format included. *)
Theorem C5_request_body (rev : Revision) (env : Env) (w : World) (f : File) :
  selectedFile (component w) = Some f →
  ∃ id req w1,
    submitForm rev env w = (Awaiting id, w1)
    ∧ effects (browser w1) = effects (browser w) ++ [HttpPost id req]
    ∧ req_body req =
        [("file", FileEntry f);
         ("output_type",
          BlobEntry (NewBlob [StringPart (JSON_stringify (outputFormat (component w)))]
                             (Some "application/json")))]
    ∧ JSON_parse_string (JSON_stringify (outputFormat (component w)))
      = Some (outputFormat (component w))
    ∧ (reachable rev env w →
       JSON_stringify (outputFormat (component w)) =
         String dquote (outputFormat (component w) +:+ String dquote ""))
    ∧ (∀ evs w2,
         run rev env evs w1 = Some w2 →
         effects (browser w2) !! length (effects (browser w)) = Some (HttpPost id req)).
Proof.
  intros Hf. eexists _, _, _. split; [by apply submitForm_sends|].
  split; [reflexivity|]. split; [by destruct rev|].
  split; [apply JSON_parse_stringify|].
  split.
  { intros Hr. apply (JSON_stringify_option rev).
    apply (inv_format _ _ (reachable_Inv _ _ _ Hr)). }
  intros evs w2 Hrun. eapply effects_kept; [exact Hrun|].
  cbn. by rewrite lookup_app_r, Nat.sub_diag.
Qed.

Lemma C5_request_body_witness :
  selectedFile (component (example_selected "webp")) = Some example_file
  ∧ ∃ id req w1 w2,
      submitForm KyRev example_env (example_selected "webp") = (Awaiting id, w1)
      ∧ run KyRev example_env [FormatChange "png"] w1 = Some w2
      ∧ outputFormat (component w2) = "png"
      ∧ effects (browser w2) !! 0 = Some (HttpPost id req)
      ∧ req_body req =
          [("file", FileEntry example_file);
           ("output_type",
            BlobEntry (NewBlob [StringPart (String dquote ("webp" +:+ String dquote ""))]
                               (Some "application/json")))].
Proof.
  split; [reflexivity|].
  destruct (C5_request_body KyRev example_env (example_selected "webp")
              example_file eq_refl)
    as (id & req & w1 & Hs & _ & Hbody & _ & _ & Hkept).
  exists id, req, w1, (exec (set_outputFormat "png") w1).
  split; [exact Hs|]. split; [reflexivity|]. split; [reflexivity|].
  split; [exact (Hkept [FormatChange "png"] _ eq_refl) | exact Hbody].
Defined.

(** *** A successful submission *)

Lemma shown_result rev c n :
  imageUrl c = Some (blob_url n) → loading c = false →
  shown rev c = [ConvertedImage (blob_url n)].
Proof. intros Hu Hl. rewrite shown_idle by done. by rewrite Hu. Qed.

Lemma to_lower_printable c : printable c = true → printable (to_lower c) = true.
Proof. by destruct c as [[] [] [] [] [] [] [] []]. Qed.

Lemma to_lower_idemp c : to_lower (to_lower c) = to_lower c.
Proof. by destruct c as [[] [] [] [] [] [] [] []]. Qed.

Lemma lower_case_printable t :
  all_printable t = true → all_printable (lower_case t) = true.
Proof.
  induction t as [|c t IH]; cbn [all_printable lower_case]; [done|].
  intros [Hc Ht]%andb_prop. by rewrite to_lower_printable, IH.
Qed.

Lemma lower_case_idemp t : lower_case (lower_case t) = lower_case t.
Proof.
  induction t as [|c t IH]; cbn [lower_case]; [done|].
  by rewrite to_lower_idemp, IH.
Qed.

(** Normalising a blob type a second time changes nothing. *)
Lemma normalize_type_idemp t : normalize_type (normalize_type t) = normalize_type t.
Proof.
  unfold normalize_type. destruct (all_printable t) eqn:E; [|reflexivity].
  by rewrite lower_case_printable, lower_case_idemp.
Qed.

(** C6. When the request of a submission settles with a status in
    200..299 and a readable body, the resumed handler puts in [imageUrl], in
    place of whatever was there, a blob URL it has just created; the URL
    stands for a blob whose content is the response body and whose type is
    the response's content type: in [src/frontend/src/App.vue] the
    Content-Type header (the empty type when it is missing), in the
    part_001 revision the type of the blob read from the response; in both
    in the form a Blob gives every type, ASCII lower case, and empty when a
    character is not printable ASCII.  Then the result is present, loading
    is false, and the page shows the image and nothing else.  In a world
    the component can be in, the URL was not in the store before and
    differs from the previous result. *)
Theorem C6_success_replaces_result (rev : Revision) (env : Env) (w : World)
    (id status : nat) (ct : option string) (body : Body) :
  id ∈ inflight (browser w) →
  200 ≤ status < 300 →
  ∃ w' blob,
    step rev env (Settle id (Response status ct (Some body))) w = Some w'
    ∧ imageUrl (component w') = Some (blob_url (nextUrl (browser w)))
    ∧ truthy_string (imageUrl (component w')) = true
    ∧ blobUrls (browser w') !! blob_url (nextUrl (browser w)) = Some blob
    ∧ blob_parts blob =
        [BlobPartOf (NewBlob [BytesPart (body_bytes body)] (Some (body_type body)))]
    ∧ blob_bytes blob = body_bytes body
    ∧ blob_type blob =
        match rev with
        | AxiosRev => normalize_type (default "" ct)
        | KyRev => normalize_type (body_type body)
        end
    ∧ loading (component w') = false
    ∧ selectedFile (component w') = selectedFile (component w)
    ∧ outputFormat (component w') = outputFormat (component w)
    ∧ shown rev (component w') = [ConvertedImage (blob_url (nextUrl (browser w)))]
    ∧ effects (browser w') = effects (browser w)
    ∧ (reachable rev env w →
       blobUrls (browser w) !! blob_url (nextUrl (browser w)) = None
       ∧ imageUrl (component w) ≠ Some (blob_url (nextUrl (browser w)))).
Proof.
  intros Hin Hok. pose proof (settle_success status ct body Hok) as Hs.
  eexists _, _.
  split; [by apply step_settle|].
  unfold exec. rewrite (resume_success _ _ _ _ Hs). cbn.
  split; [reflexivity|]. split; [reflexivity|].
  split; [apply lookup_insert_eq|].
  split; [by destruct rev|].
  split; [destruct rev; cbn; by rewrite !app_nil_r|].
  split; [destruct rev; cbn; [reflexivity | apply normalize_type_idemp]|].
  repeat (split; [reflexivity|]).
  split; [by apply shown_result|]. split; [reflexivity|].
  intros Hr. pose proof (reachable_Inv _ _ _ Hr) as HI. split.
  - destruct (blobUrls (browser w) !! blob_url (nextUrl (browser w))) as [b|] eqn:E;
      [|reflexivity].
    destruct (inv_store _ _ HI _ _ E) as (n & Hn & Heq).
    apply blob_url_inj in Heq. lia.
  - intros E. destruct (inv_result _ _ HI _ E) as (n & Hn & Heq).
    apply blob_url_inj in Heq. lia.
Qed.

Lemma C6_success_replaces_result_witness :
  1 ∈ inflight (browser example_pending)
  ∧ 200 ≤ 200 < 300
  ∧ imageUrl (component example_pending) = Some (blob_url 0)
  ∧ ∃ w' blob,
      step AxiosRev example_env
           (Settle 1 (Response 200 (Some "IMAGE/PNG; q=1") (Some example_body)))
           example_pending = Some w'
      ∧ blobUrls (browser w') !! blob_url 1 = Some blob
      ∧ blob_type blob = "image/png; q=1"
      ∧ loading (component w') = false
      ∧ shown AxiosRev (component w') = [ConvertedImage (blob_url 1)].
Proof.
  assert (1 ∈ inflight (browser example_pending)) as Hin
    by (apply elem_of_union_l, elem_of_singleton; reflexivity).
  assert (200 ≤ 200 < 300) as Hok by lia.
  split; [exact Hin|]. split; [exact Hok|]. split; [reflexivity|].
  destruct (C6_success_replaces_result AxiosRev example_env example_pending
              1 200 (Some "IMAGE/PNG; q=1") example_body Hin Hok)
    as (w' & blob & Hstep & _ & _ & Hblob & _ & _ & Hty & Hl & _ & _ & Hshown & _).
  exists w', blob. split; [exact Hstep|]. split; [exact Hblob|].
  split; [exact Hty|]. split; [exact Hl | exact Hshown].
Defined.

(** *** The Result Renderer *)

Lemma example_pending_reachable : reachable AxiosRev example_env example_pending.
Proof.
  exists [FileChange (Some [example_file]); Submit;
          Settle 0 (Response 200 (Some "image/png") (Some example_body)); Submit].
  cbn [run step]. rewrite bool_decide_eq_true_2; [reflexivity|].
  apply elem_of_union_l, elem_of_singleton. reflexivity.
Qed.

(** C7, as stated, fails in [src/frontend/src/App.vue]: after one
    successful submission and a second [Submit], a result is present and
    loading is true, and the page shows the stand-alone loading indicator
    together with the image. *)
Lemma C7_renderer_counterexample :
  reachable AxiosRev example_env example_pending
  ∧ truthy_string (imageUrl (component example_pending)) = true
  ∧ loading (component example_pending) = true
  ∧ shown AxiosRev (component example_pending) =
      [LoadingIndicator; ConvertedImage (blob_url 0)]
  ∧ shown AxiosRev (component example_pending)
      ≠ renderer_spec (component example_pending)
  ∧ existsb is_image (shown AxiosRev (component example_pending))
    && existsb is_indicator (shown AxiosRev (component example_pending)) = true.
Proof.
  split; [apply example_pending_reachable|].
  repeat split. discriminate.
Qed.

(** C7, amended. In both revisions the template has one image container,
    and it holds exactly the image when a result is present, else exactly
    one loading indicator while loading, else nothing: never both.  In the
    part_001 revision that is all the page shows.  In
    [src/frontend/src/App.vue] the page shows, before the container, one
    more loading indicator whenever loading is true, whether a result is
    present or not. *)
Theorem C7_renderer_amended (rev : Revision) (c : Component) :
  containers (template rev c) = [renderer_spec c]
  ∧ existsb is_image (renderer_spec c) && existsb is_indicator (renderer_spec c)
    = false
  ∧ shown KyRev c = renderer_spec c
  ∧ shown AxiosRev c =
      (if loading c then [LoadingIndicator] else []) ++ renderer_spec c.
Proof.
  assert (image_container c = renderer_spec c) as Hc.
  { unfold image_container, renderer_spec, truthy_string.
    destruct (imageUrl c) as [u|]; [|reflexivity].
    destruct (negb (String.eqb u "")); reflexivity. }
  split; [|split; [|split]].
  - destruct rev; cbn; [destruct (loading c)|]; cbn; by rewrite Hc.
  - unfold renderer_spec.
    destruct (imageUrl c) as [u|]; [destruct (negb (String.eqb u ""))|];
      destruct (loading c); reflexivity.
  - cbn. by rewrite app_nil_r, Hc.
  - cbn. destruct (loading c); cbn; by rewrite app_nil_r, Hc.
Qed.

(** *** The endpoint *)

Lemma string_length_app (s1 s2 : string) :
  String.length (s1 +:+ s2) = String.length s1 + String.length s2.
Proof.
  induction s1 as [|a s1 IH]; [reflexivity|].
  change (S (String.length (s1 +:+ s2)) = S (String.length s1 + String.length s2)).
  by rewrite IH.
Qed.

Lemma string_app_inv_tail (s a b : string) : a +:+ s = b +:+ s → a = b.
Proof.
  revert b. induction a as [|x a IH]; intros [|y b] H.
  - reflexivity.
  - apply (f_equal String.length) in H.
    rewrite !string_length_app in H. cbn in H. lia.
  - apply (f_equal String.length) in H.
    rewrite !string_length_app in H. cbn in H. lia.
  - change (String x (a +:+ s) = String y (b +:+ s)) in H.
    injection H as -> H. f_equal. by apply IH.
Qed.

(** C9, as stated, fails in the part_001 revision: the request goes to the
    fixed path [/api/convert_image], whatever the build was configured
    with. *)
Lemma C9_endpoint_counterexample :
  ¬ posts_to_configured_endpoint KyRev example_env (example_selected "png")
  ∧ effects (browser (exec (submitForm KyRev example_env) (example_selected "png")))
    = effects (browser (exec (submitForm KyRev other_env) (example_selected "png"))).
Proof.
  split; [|reflexivity].
  intros H.
  destruct (H 0 (conversion_request KyRev example_env
                   (submitted_body example_file "png"))) as [_ Hurl].
  - apply list_elem_of_here.
  - discriminate Hurl.
Qed.

(** C9, amended. Every request [submitForm] sends is a POST.  In
    [src/frontend/src/App.vue] its URL is [//], the build-time value of
    [VITE_BASE_URL], [/convert_image], so two builds post to the same URL
    only when configured with the same value.  In the part_001 revision the
    URL is the fixed relative path [/api/convert_image]. *)
Theorem C9_endpoint_amended (rev : Revision) (env : Env) (w : World) (f : File) :
  selectedFile (component w) = Some f →
  ∃ id req w1,
    submitForm rev env w = (Awaiting id, w1)
    ∧ effects (browser w1) = effects (browser w) ++ [HttpPost id req]
    ∧ req_method req = "POST"
    ∧ req_url req =
        match rev with
        | AxiosRev => "//" +:+ interpolate (VITE_BASE_URL env) +:+ "/convert_image"
        | KyRev => "/api/convert_image"
        end
    ∧ (∀ env', conversion_url AxiosRev env = conversion_url AxiosRev env' →
               interpolate (VITE_BASE_URL env) = interpolate (VITE_BASE_URL env'))
    ∧ (∀ env', conversion_url KyRev env = conversion_url KyRev env').
Proof.
  intros Hf. eexists _, _, _. split; [by apply submitForm_sends|].
  split; [reflexivity|]. split; [by destruct rev|]. split; [by destruct rev|].
  split; [|reflexivity].
  intros env' H. unfold conversion_url in H.
  apply (inj (String.app "//")) in H. by apply string_app_inv_tail in H.
Qed.

Lemma C9_endpoint_amended_witness :
  selectedFile (component (example_selected "png")) = Some example_file
  ∧ ∃ id req w1,
      submitForm AxiosRev example_env (example_selected "png") = (Awaiting id, w1)
      ∧ effects (browser w1) = [HttpPost id req]
      ∧ req_url req = "//conv.pupbrained.xyz/convert_image".
Proof.
  split; [reflexivity|].
  destruct (C9_endpoint_amended AxiosRev example_env (example_selected "png")
              example_file eq_refl)
    as (id & req & w1 & Hs & He & _ & Hurl & _).
  exists id, req, w1. split; [exact Hs|]. split; [exact He | exact Hurl].
Defined.

(** ** Beyond the claims: the component over whole runs *)

Lemma count_app {A} (p : A → bool) (l1 l2 : list A) :
  count p (l1 ++ l2) = count p l1 + count p l2.
Proof. induction l1 as [|x l1 IH]; cbn; [reflexivity | rewrite IH; lia]. Qed.

Lemma step_keeps_file rev env ev w w' :
  step rev env ev w = Some w' →
  is_Some (selectedFile (component w)) →
  is_Some (selectedFile (component w')).
Proof.
  intros Hstep [f Hf].
  destruct ev as [files|v| |id reply]; cbn [step] in Hstep.
  - injection Hstep as <-.
    destruct files as [[|g fs]|]; act_unfold; cbn; rewrite ?Hf; eauto.
  - case_bool_decide; [|discriminate]. injection Hstep as <-.
    act_unfold. rewrite Hf. eauto.
  - injection Hstep as <-. unfold exec.
    rewrite (submitForm_sends _ _ _ _ Hf). cbn. rewrite Hf. eauto.
  - case_bool_decide; [|discriminate]. injection Hstep as <-.
    act_unfold. destruct (settle reply); cbn; rewrite Hf; eauto.
Qed.

(** X1. No handler ever clears the selected file: once a file is selected,
    one is selected after every further sequence of file changes, format
    changes, submissions and replies. *)
Theorem file_stays_selected (rev : Revision) (env : Env) (evs : list Event)
    (w w' : World) :
  is_Some (selectedFile (component w)) →
  run rev env evs w = Some w' →
  is_Some (selectedFile (component w')).
Proof.
  revert w. induction evs as [|ev evs IH]; intros w Hf; cbn [run].
  - by intros [= <-].
  - destruct (step rev env ev w) as [w1|] eqn:Hstep; [|discriminate].
    intros Hrun. eapply IH; [|exact Hrun]. by eapply step_keeps_file.
Qed.

Lemma file_stays_selected_witness :
  is_Some (selectedFile (component (example_selected "png")))
  ∧ ∃ w', run KyRev example_env [FileChange (Some []); Submit; FileChange None]
              (example_selected "png") = Some w'
          ∧ is_Some (selectedFile (component w')).
Proof.
  assert (is_Some (selectedFile (component (example_selected "png")))) as Hf
    by (exists example_file; reflexivity).
  split; [exact Hf|]. eexists. split; [reflexivity|].
  exact (file_stays_selected KyRev example_env
           [FileChange (Some []); Submit; FileChange None] _ _ Hf eq_refl).
Defined.

Lemma step_counts rev env ev w w' :
  is_Some (selectedFile (component w)) →
  step rev env ev w = Some w' →
  count is_post (effects (browser w'))
    = count is_post (effects (browser w)) + (if is_submit ev then 1 else 0)
  ∧ count is_alert (effects (browser w')) = count is_alert (effects (browser w)).
Proof.
  intros [f Hf] Hstep.
  destruct ev as [files|v| |id reply]; cbn [step is_submit] in *.
  - injection Hstep as <-.
    destruct files as [fs|]; act_unfold; [case_bool_decide|]; cbn; split; lia.
  - case_bool_decide; [|discriminate]. injection Hstep as <-.
    act_unfold. split; lia.
  - injection Hstep as <-. unfold exec.
    rewrite (submitForm_sends _ _ _ _ Hf). unfold send.
    cbn [snd browser effects]. rewrite !count_app. cbn. split; lia.
  - case_bool_decide; [|discriminate]. injection Hstep as <-.
    act_unfold. destruct (settle reply); cbn [snd browser effects];
      rewrite ?count_app; cbn; split; lia.
Qed.

(** X2. Once a file is selected, every submission sends exactly one
    request and none raises the alert: over any run, the number of requests
    sent grows by the number of [Submit] events, and the number of alerts
    does not change. *)
Theorem one_request_per_submit (rev : Revision) (env : Env) (evs : list Event)
    (w w' : World) :
  is_Some (selectedFile (component w)) →
  run rev env evs w = Some w' →
  count is_post (effects (browser w'))
    = count is_post (effects (browser w)) + count is_submit evs
  ∧ count is_alert (effects (browser w')) = count is_alert (effects (browser w)).
Proof.
  revert w. induction evs as [|ev evs IH]; intros w Hf; cbn [run].
  - intros [= <-]. cbn. split; lia.
  - destruct (step rev env ev w) as [w1|] eqn:Hstep; [|discriminate].
    intros Hrun.
    destruct (step_counts _ _ _ _ _ Hf Hstep) as [Hp Ha].
    destruct (IH w1 (step_keeps_file _ _ _ _ _ Hstep Hf) Hrun) as [Hp' Ha'].
    rewrite Hp', Ha', Hp, Ha. cbn [count]. split; lia.
Qed.

Lemma one_request_per_submit_witness :
  is_Some (selectedFile (component (example_selected "png")))
  ∧ ∃ w', run AxiosRev example_env
              [Submit; FormatChange "gif"; Submit;
               Settle 0 (Response 500 None None)]
              (example_selected "png") = Some w'
          ∧ count is_post (effects (browser w')) = 2
          ∧ count is_alert (effects (browser w')) = 0.
Proof.
  assert (is_Some (selectedFile (component (example_selected "png")))) as Hf
    by (exists example_file; reflexivity).
  split; [exact Hf|]. eexists. split; [reflexivity|].
  exact (one_request_per_submit AxiosRev example_env
           [Submit; FormatChange "gif"; Submit; Settle 0 (Response 500 None None)]
           _ _ Hf eq_refl).
Defined.

(** ** Beyond the claims: submitting through the button only *)

Lemma ui_step_step rev env ev w w' :
  ui_step rev env ev w = Some w' → step rev env ev w = Some w'.
Proof.
  destruct ev; cbn [ui_step]; try done.
  by destruct (isSubmitDisabled (component w)).
Qed.

Lemma ui_run_run rev env evs w w' :
  ui_run rev env evs w = Some w' → run rev env evs w = Some w'.
Proof.
  revert w. induction evs as [|ev evs IH]; intros w; cbn [ui_run run]; [done|].
  destruct (ui_step rev env ev w) as [w1|] eqn:Hstep; [|discriminate].
  rewrite (ui_step_step _ _ _ _ _ Hstep). apply IH.
Qed.

Lemma ui_step_calm rev env ev w w' :
  calm w → ui_step rev env ev w = Some w' →
  calm w'
  ∧ count is_alert (effects (browser w')) = count is_alert (effects (browser w)).
Proof.
  intros Hc Hstep.
  destruct ev as [files|v| |id reply]; cbn [ui_step step] in Hstep.
  - injection Hstep as <-.
    destruct files as [fs|]; act_unfold; [case_bool_decide|]; by cbn.
  - case_bool_decide; [|discriminate]. injection Hstep as <-. by act_unfold.
  - (* the button is enabled: a file is selected and loading is false *)
    unfold isSubmitDisabled in Hstep.
    destruct (selectedFile (component w)) as [f|] eqn:Hf; [|discriminate].
    destruct (loading (component w)) eqn:Hl; [discriminate|]. cbn in Hstep.
    injection Hstep as <-. unfold exec.
    rewrite (submitForm_sends _ _ _ _ Hf). unfold send.
    cbn [snd browser effects component inflight with_loading loading].
    destruct Hc as [[_ He]|[Ht _]]; [|congruence]. split.
    + right. split; [reflexivity|]. exists (nextRequest (browser w)).
      rewrite He. apply (right_id_L ∅ (∪)).
    + rewrite count_app. cbn. lia.
  - (* only the one request in flight can settle *)
    case_bool_decide as Hin; [|discriminate]. injection Hstep as <-.
    destruct Hc as [[_ He]|[_ [id' He]]].
    { rewrite He in Hin. by apply not_elem_of_empty in Hin. }
    rewrite He in Hin. apply elem_of_singleton in Hin as ->.
    act_unfold. rewrite He.
    destruct (settle reply); cbn [snd browser effects component inflight loading].
    + split; [left; split; [reflexivity | apply difference_diag_L]|].
      rewrite count_app. cbn. lia.
    + split; [left; split; [reflexivity | apply difference_diag_L] | reflexivity].
Qed.

Lemma calm_size w :
  calm w →
  (loading (component w) = true ↔ inflight (browser w) ≠ ∅)
  ∧ (size (inflight (browser w)) ≤ 1)%nat.
Proof.
  intros [[Hl He]|[Hl [id He]]]; rewrite Hl, He; split.
  - split; [discriminate | intros Hn; by destruct Hn].
  - rewrite size_empty. lia.
  - split; [|reflexivity]. intros _ Hs.
    apply (not_elem_of_empty (C:=gset nat) id). rewrite <- Hs.
    by apply elem_of_singleton.
  - rewrite size_singleton. lia.
Qed.

(** X3. When [submitForm] runs only on clicks of the submit button, which
    is disabled by [isSubmitDisabled], submissions never overlap: after any
    such run from the initial state at most one request is in flight,
    loading is true exactly while one is, and the missing-file alert has
    never been raised. *)
Theorem ui_submissions_do_not_overlap (rev : Revision) (env : Env)
    (evs : list Event) (w : World) :
  ui_run rev env evs init = Some w →
  run rev env evs init = Some w
  ∧ (loading (component w) = true ↔ inflight (browser w) ≠ ∅)
  ∧ (size (inflight (browser w)) ≤ 1)%nat
  ∧ count is_alert (effects (browser w)) = 0.
Proof.
  intros Hrun. split; [by apply ui_run_run|].
  assert (calm w ∧ count is_alert (effects (browser w)) = 0) as [Hc Ha].
  { assert (calm init ∧ count is_alert (effects (browser init)) = 0) as H0
      by (split; [by left | reflexivity]).
    revert H0 Hrun. generalize init as w0. induction evs as [|ev evs IH];
      intros w0 [Hc Ha]; cbn [ui_run].
    - by intros [= <-].
    - destruct (ui_step rev env ev w0) as [w1|] eqn:Hstep; [|discriminate].
      destruct (ui_step_calm _ _ _ _ _ Hc Hstep) as [Hc1 Ha1].
      apply IH. split; [exact Hc1 | by rewrite Ha1]. }
  destruct (calm_size _ Hc) as [Hl Hs]. by repeat split; try apply Hl.
Qed.

Lemma ui_submissions_do_not_overlap_witness :
  ∃ w, ui_run AxiosRev example_env
         [FileChange (Some [example_file]); Submit; FormatChange "gif"] init = Some w
       ∧ loading (component w) = true
       ∧ (size (inflight (browser w)) ≤ 1)%nat.
Proof.
  eexists. split; [reflexivity|].
  destruct (ui_submissions_do_not_overlap AxiosRev example_env
              [FileChange (Some [example_file]); Submit; FormatChange "gif"]
              _ eq_refl) as (_ & _ & Hs & _).
  split; [reflexivity | exact Hs].
Defined.

(** ** Beyond the claims: what every reachable world looks like *)

Lemma reachable_ind_inv rev env (P : World → Prop) :
  P init →
  (∀ ev w w', reachable rev env w → P w → step rev env ev w = Some w' → P w') →
  ∀ w, reachable rev env w → P w.
Proof.
  intros H0 Hs w [evs Hrun]. revert w Hrun.
  induction evs as [|ev evs IH] using rev_ind; intros w Hrun.
  - by injection Hrun as <-.
  - rewrite run_app in Hrun.
    destruct (run rev env evs init) as [w1|] eqn:E; [|discriminate].
    cbn in Hrun. destruct (step rev env ev w1) as [w2|] eqn:Hstep; [|discriminate].
    injection Hrun as <-. apply (Hs ev w1); [by exists evs | by apply IH | done].
Qed.

(** X4. Until a file is selected nothing leaves the component: in every
    world the component can be in with no file selected, there is no result,
    no request was ever sent, no blob URL was ever created, and all that
    happened are missing-file alerts. *)
Theorem nothing_sent_before_file (rev : Revision) (env : Env) (w : World) :
  reachable rev env w →
  selectedFile (component w) = None →
  imageUrl (component w) = None
  ∧ nextRequest (browser w) = 0
  ∧ nextUrl (browser w) = 0
  ∧ blobUrls (browser w) = ∅
  ∧ ∀ e, e ∈ effects (browser w) → e = Alert "Please select a file!".
Proof.
  intros Hr. revert w Hr. refine (reachable_ind_inv rev env _ _ _).
  - intros _. repeat split. intros e He. by apply elem_of_nil in He.
  - intros ev w w' Hr IH Hstep Hnone.
    assert (selectedFile (component w) = None) as Hf.
    { destruct (selectedFile (component w)) eqn:E; [|reflexivity].
      destruct (step_keeps_file _ _ _ _ _ Hstep) as [f' Hf']; [by rewrite E; eauto|].
      congruence. }
    specialize (IH Hf).
    destruct ev as [files|v| |id reply]; cbn [step] in Hstep.
    + injection Hstep as <-. revert Hnone.
      destruct files as [fs|]; act_unfold; [case_bool_decide|]; cbn; try done.
    + case_bool_decide; [|discriminate]. injection Hstep as <-. by act_unfold.
    + injection Hstep as <-. unfold exec.
      rewrite (submitForm_guard _ _ _ Hf). unfold log. cbn.
      destruct IH as (? & ? & ? & ? & Hall). repeat (split; [done|]).
      intros e [He|He%list_elem_of_singleton]%elem_of_app; [by apply Hall | done].
    + case_bool_decide as Hin; [|discriminate].
      destruct (inv_idle _ _ (reachable_Inv _ _ _ Hr) Hf) as [_ He].
      rewrite He in Hin. by apply not_elem_of_empty in Hin.
Qed.

Lemma nothing_sent_before_file_witness :
  reachable KyRev example_env (exec (submitForm KyRev example_env) init)
  ∧ selectedFile (component (exec (submitForm KyRev example_env) init)) = None
  ∧ nextRequest (browser (exec (submitForm KyRev example_env) init)) = 0.
Proof.
  assert (reachable KyRev example_env (exec (submitForm KyRev example_env) init))
    as Hr by (by exists [Submit]).
  split; [exact Hr|]. split; [reflexivity|].
  exact (proj1 (proj2 (nothing_sent_before_file KyRev example_env _ Hr eq_refl))).
Defined.

Lemma step_keeps_urls rev env ev w w' u b :
  Inv rev w → step rev env ev w = Some w' →
  blobUrls (browser w) !! u = Some b → blobUrls (browser w') !! u = Some b.
Proof.
  intros HI Hstep Hu.
  destruct ev as [files|v| |id reply]; cbn [step] in Hstep.
  - injection Hstep as <-.
    destruct files as [fs|]; act_unfold; [case_bool_decide|]; by cbn.
  - case_bool_decide; [|discriminate]. injection Hstep as <-. by act_unfold.
  - injection Hstep as <-.
    destruct (selectedFile (component w)) as [f|] eqn:Hf; unfold exec.
    + by rewrite (submitForm_sends _ _ _ _ Hf).
    + by rewrite (submitForm_guard _ _ _ Hf).
  - case_bool_decide; [|discriminate]. injection Hstep as <-.
    act_unfold. destruct (settle reply); cbn; [done|].
    rewrite lookup_insert_ne; [done|]. intros <-.
    destruct (inv_store _ _ HI _ _ Hu) as (n & Hn & Heq).
    apply blob_url_inj in Heq. lia.
Qed.

(** X5. No handler revokes a blob URL: whatever happens after a reachable
    world, every blob URL registered in it stays registered, for the same
    blob. *)
Theorem blob_urls_never_revoked (rev : Revision) (env : Env) (evs : list Event)
    (w w' : World) (u : string) (b : Blob) :
  reachable rev env w →
  run rev env evs w = Some w' →
  blobUrls (browser w) !! u = Some b →
  blobUrls (browser w') !! u = Some b.
Proof.
  revert w. induction evs as [|ev evs IH]; intros w Hr; cbn [run].
  - by intros [= <-].
  - destruct (step rev env ev w) as [w1|] eqn:Hstep; [|discriminate].
    intros Hrun Hu. apply (IH w1); [by eapply reachable_step | done |].
    eapply step_keeps_urls; [by eapply reachable_Inv | done | done].
Qed.

Lemma blob_urls_never_revoked_witness :
  ∃ w' b,
    run AxiosRev example_env
        [Settle 1 (Response 200 (Some "image/gif") (Some example_body))] example_pending
      = Some w'
    ∧ blobUrls (browser example_pending) !! blob_url 0 = Some b
    ∧ imageUrl (component w') = Some (blob_url 1)
    ∧ blobUrls (browser w') !! blob_url 0 = Some b.
Proof.
  assert (∃ w', run AxiosRev example_env
                  [Settle 1 (Response 200 (Some "image/gif") (Some example_body))]
                  example_pending = Some w'
                ∧ imageUrl (component w') = Some (blob_url 1)) as (w' & Hrun & Hu).
  { eexists. split.
    - cbn [run]. rewrite step_settle; [reflexivity|].
      apply elem_of_union_l, elem_of_singleton. reflexivity.
    - reflexivity. }
  assert (∃ b, blobUrls (browser example_pending) !! blob_url 0 = Some b) as [b Hb].
  { eexists. apply lookup_insert_eq. }
  exists w', b. split; [exact Hrun|]. split; [exact Hb|]. split; [exact Hu|].
  exact (blob_urls_never_revoked AxiosRev example_env _ _ _ _ _
           example_pending_reachable Hrun Hb).
Defined.

(** X6. In every world the component can be in, the result shown is the
    blob URL created last: there is no result exactly when no URL was ever
    created, a result is never the empty string (so the template's
    truthiness test is a presence test), and the store holds as many URLs
    as were created, all but the last no longer referenced by the
    component. *)
Theorem result_is_newest_blob_url (rev : Revision) (env : Env) (w : World) :
  reachable rev env w →
  (nextUrl (browser w) = 0 ↔ imageUrl (component w) = None)
  ∧ (∀ n, nextUrl (browser w) = S n → imageUrl (component w) = Some (blob_url n))
  ∧ (truthy_string (imageUrl (component w)) = true
     ↔ imageUrl (component w) ≠ None)
  ∧ size (blobUrls (browser w)) = nextUrl (browser w).
Proof.
  intros Hr.
  assert ((nextUrl (browser w) = 0 → imageUrl (component w) = None)
          ∧ (∀ n, nextUrl (browser w) = S n →
                  imageUrl (component w) = Some (blob_url n))
          ∧ size (blobUrls (browser w)) = nextUrl (browser w)) as (H0 & HS & Hsz).
  { revert w Hr. refine (reachable_ind_inv rev env _ _ _); [by repeat split|].
    intros ev w w' Hr (H0 & HS & Hsz) Hstep.
    destruct ev as [files|v| |id reply]; cbn [step] in Hstep.
    - injection Hstep as <-.
      destruct files as [fs|]; act_unfold; [case_bool_decide|]; by cbn.
    - case_bool_decide; [|discriminate]. injection Hstep as <-. by act_unfold.
    - injection Hstep as <-.
      destruct (selectedFile (component w)) as [f|] eqn:Hf; unfold exec.
      + by rewrite (submitForm_sends _ _ _ _ Hf).
      + by rewrite (submitForm_guard _ _ _ Hf).
    - case_bool_decide; [|discriminate]. injection Hstep as <-.
      act_unfold. destruct (settle reply); cbn; [done|].
      split; [done|]. split; [by intros n [= <-]|].
      rewrite map_size_insert_None; [by rewrite Hsz|].
      destruct (blobUrls (browser w) !! blob_url (nextUrl (browser w)))
        as [b|] eqn:E; [|reflexivity].
      destruct (inv_store _ _ (reachable_Inv _ _ _ Hr) _ _ E) as (n & Hn & Heq).
      apply blob_url_inj in Heq. lia. }
  split; [|split; [exact HS|split; [|exact Hsz]]].
  - split; [exact H0|]. intros Hn.
    destruct (nextUrl (browser w)) as [|n] eqn:E; [reflexivity|].
    rewrite (HS n eq_refl) in Hn. discriminate.
  - destruct (imageUrl (component w)) as [u|] eqn:E; cbn; [|split; [discriminate|done]].
    destruct (inv_result _ _ (reachable_Inv _ _ _ Hr) _ E) as (n & _ & ->).
    split; [discriminate | reflexivity].
Qed.

Lemma result_is_newest_blob_url_witness :
  reachable AxiosRev example_env example_pending
  ∧ imageUrl (component example_pending) = Some (blob_url 0)
  ∧ size (blobUrls (browser example_pending)) = 1.
Proof.
  pose proof example_pending_reachable as Hr.
  destruct (result_is_newest_blob_url AxiosRev example_env example_pending Hr)
    as (_ & HS & _ & Hsz).
  split; [exact Hr|]. split; [exact (HS 0 eq_refl) | exact Hsz].
Defined.

(** ** Beyond the claims: the two revisions side by side *)

Lemma in_step_step enva envk ev wa wk wa' wk' :
  in_step wa wk →
  step AxiosRev enva ev wa = Some wa' →
  step KyRev envk ev wk = Some wk' →
  in_step wa' wk'.
Proof.
  destruct wa as [ca ba], wk as [ck bk]. unfold in_step. cbn.
  intros (-> & Hi & Hr & Hu) Ha Hk.
  destruct ev as [files|v| |id reply]; cbn [step] in Ha, Hk.
  - injection Ha as <-. injection Hk as <-.
    destruct files as [fs|]; act_unfold; [case_bool_decide|]; by cbn.
  - case_bool_decide; [|discriminate]. case_bool_decide; [|discriminate].
    injection Ha as <-. injection Hk as <-. by act_unfold.
  - injection Ha as <-. injection Hk as <-.
    destruct (selectedFile ck) as [f|] eqn:Hf; unfold exec.
    + rewrite !(submitForm_sends _ _ _ f) by done. cbn.
      by rewrite Hi, Hr.
    + rewrite !submitForm_guard by done. by cbn.
  - case_bool_decide; [|discriminate]. case_bool_decide; [|discriminate].
    injection Ha as <-. injection Hk as <-.
    act_unfold. destruct (settle reply); cbn; by rewrite Hi, ?Hu.
Qed.

(** X7. The two revisions of the component behave alike: started from the
    same world and fed the same events, whatever the build environments,
    they end with the same refs, the same requests in flight and the same
    number of requests sent and of blob URLs created. *)
Theorem revisions_in_step (enva envk : Env) (evs : list Event)
    (w wa wk : World) :
  run AxiosRev enva evs w = Some wa →
  run KyRev envk evs w = Some wk →
  in_step wa wk.
Proof.
  assert (in_step w w) as H0 by (by repeat split).
  revert H0. generalize w at 1 3 as w1. generalize w as w2.
  induction evs as [|ev evs IH]; intros w2 w1 HR; cbn [run].
  - by intros [= <-] [= <-].
  - destruct (step AxiosRev enva ev w1) as [w1'|] eqn:Ha; [|discriminate].
    destruct (step KyRev envk ev w2) as [w2'|] eqn:Hk; [|discriminate].
    apply IH. by eapply in_step_step.
Qed.

Lemma revisions_in_step_witness :
  ∃ wa wk,
    run AxiosRev example_env
        [FileChange (Some [example_file]); FormatChange "webp"; Submit] init = Some wa
    ∧ run KyRev other_env
        [FileChange (Some [example_file]); FormatChange "webp"; Submit] init = Some wk
    ∧ component wa = component wk.
Proof.
  eexists _, _. split; [reflexivity|]. split; [reflexivity|].
  exact (proj1 (revisions_in_step example_env other_env
                  [FileChange (Some [example_file]); FormatChange "webp"; Submit]
                  init _ _ eq_refl eq_refl)).
Defined.

(** ** Beyond the claims: the request on the wire *)

(** X8. The body of a request tells what was submitted: two submissions
    build the same [FormData] only for the same file and the same output
    format, because [JSON.stringify] is one-to-one on strings. *)
Theorem submitted_body_inj (f g : File) (fmt fmt' : string) :
  submitted_body f fmt = submitted_body g fmt' → f = g ∧ fmt = fmt'.
Proof.
  unfold submitted_body. intros H.
  assert (f = g) as Hfile by congruence.
  assert (JSON_stringify fmt = JSON_stringify fmt') as HJ by congruence.
  split; [exact Hfile|].
  apply (f_equal JSON_parse_string) in HJ.
  rewrite !JSON_parse_stringify in HJ. by injection HJ.
Qed.

Lemma submitted_body_inj_witness :
  example_file = example_file ∧ "png" = "png".
Proof. exact (submitted_body_inj example_file example_file "png" "png" eq_refl). Defined.

Lemma strip_prefix_app p s : strip_prefix p (p +:+ s) = Some s.
Proof.
  induction p as [|a p IH]; [reflexivity|].
  change (String a p +:+ s) with (String a (p +:+ s)). cbn.
  by rewrite decide_True.
Qed.

Lemma strip_prefix_Some p s r : strip_prefix p s = Some r → s = p +:+ r.
Proof.
  revert s. induction p as [|a p IH]; intros s H; cbn in H.
  - by injection H as ->.
  - destruct s as [|b s]; [discriminate|].
    case_decide as E; [|discriminate]. subst b.
    change (String a p +:+ r) with (String a (p +:+ r)). f_equal. by apply IH.
Qed.

(** X9. The proxy's [rewrite] removes the leading [/api] of a path and
    nothing else: whatever follows it is returned unchanged, a further
    [/api] inside included, and a path that does not start with [/api] is
    returned as it is. *)
Theorem rewrite_strips_leading_api (path rest : string) :
  rewrite_path ("/api" +:+ rest) = rest
  ∧ ((∀ r, path ≠ "/api" +:+ r) → rewrite_path path = path)
  ∧ (String.length (rewrite_path path) ≤ String.length path)%nat.
Proof.
  split; [|split].
  - unfold rewrite_path. by rewrite strip_prefix_app.
  - intros Hn. unfold rewrite_path.
    destruct (strip_prefix "/api" path) as [r|] eqn:E; [|reflexivity].
    apply strip_prefix_Some in E. by destruct (Hn r).
  - unfold rewrite_path.
    destruct (strip_prefix "/api" path) as [r|] eqn:E; [|lia].
    apply strip_prefix_Some in E. subst path.
    rewrite string_length_app. lia.
Qed.

Lemma rewrite_strips_leading_api_witness :
  rewrite_path "/api/api/x" = "/api/x" ∧ rewrite_path "/convert_image" = "/convert_image".
Proof.
  destruct (rewrite_strips_leading_api "/convert_image" "/api/x") as (H1 & H2 & _).
  split; [exact H1|]. apply H2. intros r. discriminate.
Defined.

(** X10. The part_001 revision posts to the path [/api/convert_image].
    That path starts with the context of the one proxy rule of
    [vite.config.ts], whose target is [http://localhost:8080], and the
    rule's [rewrite] turns it into [/convert_image]. *)
Theorem ky_request_meets_proxy_rule (env : Env) (w : World) (f : File) :
  selectedFile (component w) = Some f →
  ∃ id req w1 rule,
    submitForm KyRev env w = (Awaiting id, w1)
    ∧ effects (browser w1) = effects (browser w) ++ [HttpPost id req]
    ∧ req_url req = "/api/convert_image"
    ∧ rule_for proxy (req_url req) = Some rule
    ∧ target rule = "http://localhost:8080"
    ∧ rewrite rule (req_url req) = "/convert_image".
Proof.
  intros Hf. eexists _, _, _, _. split; [by apply submitForm_sends|].
  repeat split.
Qed.

Lemma ky_request_meets_proxy_rule_witness :
  selectedFile (component (example_selected "png")) = Some example_file
  ∧ ∃ id req w1 rule,
      submitForm KyRev example_env (example_selected "png") = (Awaiting id, w1)
      ∧ rule_for proxy (req_url req) = Some rule
      ∧ rewrite rule (req_url req) = "/convert_image".
Proof.
  split; [reflexivity|].
  destruct (ky_request_meets_proxy_rule example_env (example_selected "png")
              example_file eq_refl)
    as (id & req & w1 & rule & Hs & _ & _ & Hrule & _ & Hrw).
  exists id, req, w1, rule. split; [exact Hs|]. split; [exact Hrule | exact Hrw].
Defined.

(** ** Beyond the claims: the log of a reachable world *)

(** X11. Every request the component ever sent is the conversion request
    of its revision, carrying a file and an output format that the select
    offers. *)
Theorem every_request_asks_for_an_offered_format (rev : Revision) (env : Env)
    (w : World) (id : nat) (req : Request) :
  reachable rev env w →
  HttpPost id req ∈ effects (browser w) →
  ∃ f fmt,
    fmt ∈ options rev
    ∧ req = conversion_request rev env (submitted_body f fmt)
    ∧ req_method req = "POST"
    ∧ req_url req = conversion_url rev env.
Proof.
  intros Hr. revert id req. revert w Hr.
  refine (reachable_ind_inv rev env _ _ _).
  - intros id req H. by apply elem_of_nil in H.
  - intros ev w w' Hr IH Hstep id req.
    destruct ev as [files|v| |id' reply]; cbn [step] in Hstep.
    + injection Hstep as <-.
      destruct files as [fs|]; act_unfold; [case_bool_decide|]; cbn; apply IH.
    + case_bool_decide; [|discriminate]. injection Hstep as <-.
      act_unfold. apply IH.
    + injection Hstep as <-.
      destruct (selectedFile (component w)) as [f|] eqn:Hf; unfold exec.
      * rewrite (submitForm_sends _ _ _ _ Hf). unfold send. cbn.
        intros [Hin|Hin%list_elem_of_singleton]%elem_of_app; [exact (IH _ _ Hin)|].
        injection Hin as -> ->. exists f, (outputFormat (component w)).
        split; [apply (inv_format _ _ (reachable_Inv _ _ _ Hr))|].
        split; [reflexivity|]. by destruct rev.
      * rewrite (submitForm_guard _ _ _ Hf). unfold log. cbn.
        intros [Hin|Hin%list_elem_of_singleton]%elem_of_app;
          [exact (IH _ _ Hin) | discriminate].
    + case_bool_decide; [|discriminate]. injection Hstep as <-.
      act_unfold. destruct (settle reply); cbn; [|apply IH].
      intros [Hin|Hin%list_elem_of_singleton]%elem_of_app;
        [exact (IH _ _ Hin) | discriminate].
Qed.

Lemma every_request_asks_for_an_offered_format_witness :
  reachable AxiosRev example_env example_pending
  ∧ ∃ id req f fmt,
      HttpPost id req ∈ effects (browser example_pending)
      ∧ fmt ∈ options AxiosRev
      ∧ req = conversion_request AxiosRev example_env (submitted_body f fmt).
Proof.
  pose proof example_pending_reachable as Hr.
  split; [exact Hr|].
  assert (HttpPost 0 (conversion_request AxiosRev example_env
                        (submitted_body example_file "png"))
          ∈ effects (browser example_pending)) as Hin by apply list_elem_of_here.
  destruct (every_request_asks_for_an_offered_format _ _ _ _ _ Hr Hin)
    as (f & fmt & Hfmt & Hreq & _).
  eexists 0, _, f, fmt. split; [exact Hin|]. split; [exact Hfmt | exact Hreq].
Defined.

(** X12. No request is lost or counted twice: in every world the component
    can be in, the requests sent are exactly those still in flight, those
    that failed (one console error each) and those that succeeded (one blob
    URL each). *)
Theorem requests_are_accounted_for (rev : Revision) (env : Env) (w : World) :
  reachable rev env w →
  count is_post (effects (browser w))
    = size (inflight (browser w))
      + count is_console_error (effects (browser w))
      + nextUrl (browser w).
Proof.
  intros Hr.
  assert ((∀ id, id ∈ inflight (browser w) → id < nextRequest (browser w))
          ∧ count is_post (effects (browser w))
            = size (inflight (browser w))
              + count is_console_error (effects (browser w))
              + nextUrl (browser w)) as [_ H]; [|exact H].
  revert w Hr. refine (reachable_ind_inv rev env _ _ _).
  - split; [intros id H; by apply not_elem_of_empty in H | reflexivity].
  - intros ev w w' Hr [Hids Hcount] Hstep.
    destruct ev as [files|v| |id reply]; cbn [step] in Hstep.
    + injection Hstep as <-.
      destruct files as [fs|]; act_unfold; [case_bool_decide|]; by cbn.
    + case_bool_decide; [|discriminate]. injection Hstep as <-. by act_unfold.
    + injection Hstep as <-.
      destruct (selectedFile (component w)) as [f|] eqn:Hf; unfold exec.
      * rewrite (submitForm_sends _ _ _ _ Hf). unfold send.
        cbn [snd browser effects inflight nextRequest nextUrl]. split.
        -- intros id [->%elem_of_singleton|Hin%Hids]%elem_of_union; lia.
        -- rewrite !count_app, size_union, size_singleton; [cbn; lia|].
           intros id ->%elem_of_singleton Hin%Hids. lia.
      * rewrite (submitForm_guard _ _ _ Hf). unfold log.
        cbn [snd browser effects inflight nextRequest nextUrl]. split; [done|].
        rewrite !count_app. cbn. lia.
    + case_bool_decide as Hin; [|discriminate]. injection Hstep as <-.
      assert (size (inflight (browser w))
              = S (size (inflight (browser w) ∖ {[id]}))) as Hsz.
      { rewrite (size_difference (inflight (browser w)) {[id]}).
        - rewrite size_singleton.
          assert (size (inflight (browser w)) ≠ 0); [|lia].
          intros H0%size_empty_inv.
          apply (not_elem_of_empty (C:=gset nat) id). by rewrite <- H0.
        - by apply singleton_subseteq_l. }
      act_unfold. destruct (settle reply);
        cbn [snd browser effects inflight nextRequest nextUrl]; split.
      * intros id' [Hin' _]%elem_of_difference. by apply Hids.
      * rewrite !count_app. cbn. lia.
      * intros id' [Hin' _]%elem_of_difference. by apply Hids.
      * lia.
Qed.

Lemma requests_are_accounted_for_witness :
  reachable AxiosRev example_env example_pending
  ∧ count is_post (effects (browser example_pending))
    = size (inflight (browser example_pending))
      + count is_console_error (effects (browser example_pending))
      + nextUrl (browser example_pending)
  ∧ count is_post (effects (browser example_pending)) = 2
  ∧ nextUrl (browser example_pending) = 1.
Proof.
  pose proof example_pending_reachable as Hr.
  split; [exact Hr|].
  split; [exact (requests_are_accounted_for AxiosRev example_env example_pending Hr)|].
  split; reflexivity.
Defined.
